(** * freedictionaryapi.clients.base_async_client

    A shallow embedding of [BaseAsyncDictionaryApiClient]: the three fetch
    coroutines ([fetch_json], [fetch_parser], [fetch_word]) written over the
    abstract transport [fetch_api_response] and over the helpers the class
    inherits or imports ([_generate_url], [_analyze_response],
    [DictionaryApiParser], [logger]).

    A coroutine is a state-and-exception computation; [await] is sequencing.
    The state holds the client object ([self]), everything outside of it
    (network, log handlers, ...) and the history of the calls made by the
    code of this class, in the order they were made. *)

From Stdlib Require Import String ZArith List Bool Lia.
Import ListNotations.
Local Open Scope string_scope.
Local Open Scope Z_scope.

Set Implicit Arguments.

(** ** Decoded JSON bodies ([typing.Any] as produced by [response.json()]) *)

#[warnings="-register-all"]
Inductive Json : Type :=
| JNull
| JBool (b : bool)
| JInt (n : Z)
| JFloat (literal : string)
| JStr (s : string)
| JList (items : list Json)
| JObject (fields : list (string * Json)).

(** [dict.get]-like lookup of a key in the fields of a JSON object. *)
Fixpoint json_field (key : string) (fields : list (string * Json)) : option Json :=
  match fields with
  | [] => None
  | (k, v) :: rest => if String.eqb k key then Some v else json_field key rest
  end.

(** ** Outcomes of a call: a returned value or a raised exception *)

Inductive Outcome (Exc A : Type) : Type :=
| Returned (a : A)
| Raised (e : Exc).

Arguments Returned {Exc A} a.
Arguments Raised {Exc A} e.

(** ** The client *)

Section AsyncClient.

(** [Self]: the fields of the client object; [World]: what lives outside
    of it; [Exc]: exception objects; [LanguageCodes]: the enum of
    [..languages]; [DictionaryApiParser], [Word]: the classes of
    [..parsers] and [..types]. *)
Variables Self World Exc LanguageCodes DictionaryApiParser Word : Type.

(** The calls the class makes to its collaborators. *)
Inductive Call : Type :=
| CallGenerateUrl (word : string) (language_code : option LanguageCodes)
| CallLoggerInfo (message : string)
| CallFetchApiResponse (url : string)
| CallAnalyzeResponse (url : string) (response_status_code : Z) (json_response : Json)
| CallDictionaryApiParser (json_response : Json)
| CallParserWord (parser : DictionaryApiParser).

Definition is_fetch_api_response (c : Call) : bool :=
  match c with CallFetchApiResponse _ => true | _ => false end.

(** How many times the transport primitive occurs in a history. *)
Definition transport_calls (h : list Call) : nat :=
  List.length (List.filter is_fetch_api_response h).

Record Run : Type := mkRun {
  client : Self;
  world : World;
  calls : list Call
}.

(** A coroutine body: runs from a state to an outcome and a state. *)
Definition Coroutine (A : Type) : Type := Run -> Outcome Exc A * Run.

Definition ret {A} (a : A) : Coroutine A := fun r => (Returned a, r).

Definition bind {A B} (m : Coroutine A) (k : A -> Coroutine B) : Coroutine B :=
  fun r =>
    match m r with
    | (Returned a, r') => k a r'
    | (Raised e, r') => (Raised e, r')
    end.

(** A method of the client: may read and write [self] and the world,
    and may raise.  While an awaited method is suspended other tasks may
    run: what they do is part of what the method does to the state. *)
Definition Method (A : Type) : Type := Self -> World -> Outcome Exc A * Self * World.

Definition record (c : Call) (r : Run) : Run :=
  {| client := client r; world := world r; calls := calls r ++ [c] |}.

(** [await self.m(...)]: the call is entered, then the method runs. *)
Definition call_method {A} (c : Call) (m : Method A) : Coroutine A :=
  fun r =>
    let '(o, self', world') := m (client r) (world r) in
    (o, {| client := self'; world := world'; calls := calls r ++ [c] |}).

(** A call of a side-effect free function. *)
Definition call_pure {A} (c : Call) (o : Outcome Exc A) : Coroutine A :=
  fun r => (o, record c r).

(** [logger.<level>(message)]: acts on the world only and returns [None]. *)
Definition call_logger (c : Call) (emit : World -> World) : Coroutine unit :=
  fun r =>
    (Returned tt,
     {| client := client r; world := emit (world r); calls := calls r ++ [c] |}).

(** *** Collaborators *)

(** What [BaseDictionaryApiClientInterface] provides to this class.

    Modelled from the spec: [_generate_url] and [_analyze_response] are
    defined in [base_client_interface], outside this module.  The URL
    builder has no side effect (it may read the client): it returns the
    url and the language code actually used, or raises when it refuses
    its input; the response analyzer returns the body or raises (and
    logs). *)
Class BaseDictionaryApiClientInterface : Type := {
  _generate_url :
    Self -> string -> option LanguageCodes -> Outcome Exc (string * LanguageCodes);
  _analyze_response : string -> Z -> Json -> Method Json
}.

(** The abstract method of the class: the transport primitive. *)
Class AsyncTransport : Type := {
  fetch_api_response : string -> Method (Z * Json)
}.

(** Modelled from the spec: [DictionaryApiParser] (of [..parsers], outside
    this module) is built from a decoded body and exposes a [word]
    property; parsing is pure and may fail. *)
Class ParserClass : Type := {
  DictionaryApiParser_init : Json -> Outcome Exc DictionaryApiParser;
  DictionaryApiParser_word : DictionaryApiParser -> Outcome Exc Word
}.

(** The module-level [logger] and the [repr] used by the f-string. *)
Class Logging : Type := {
  logger_info : string -> World -> World;
  repr_str : string -> string;
  repr_language_code : LanguageCodes -> string
}.

Context {interface : BaseDictionaryApiClientInterface}
        {parsers : ParserClass}
        {logging : Logging}.

Declare Scope coroutine_scope.
Delimit Scope coroutine_scope with coroutine.

Notation "x <- m ;; k" := (bind m (fun x => k))
  (at level 100, m at next level, right associativity) : coroutine_scope.
Notation "' p <- m ;; k" := (bind m (fun x => let 'p := x in k))
  (at level 100, p pattern, m at next level, right associativity) : coroutine_scope.
Notation "m ;; k" := (bind m (fun _ => k))
  (at level 100, right associativity) : coroutine_scope.

Local Open Scope coroutine_scope.

(** [self._generate_url(word, language_code)] *)
Definition self_generate_url (word : string) (language_code : option LanguageCodes)
  : Coroutine (string * LanguageCodes) :=
  fun r => call_pure (CallGenerateUrl word language_code)
                     (_generate_url (client r) word language_code) r.

(** The f-string of the [logger.info] call of [fetch_json]. *)
Definition request_log_message (word : string) (language_code : LanguageCodes) (url : string)
  : string :=
  ("Send request to API with word " ++ repr_str word
    ++ " and language code " ++ repr_language_code language_code
    ++ ". URL: " ++ repr_str url ++ ".")%string.

Definition self_logger_info (message : string) : Coroutine unit :=
  call_logger (CallLoggerInfo message) (logger_info message).

(** [self._analyze_response(url, response_status_code, json_response)] *)
Definition self_analyze_response (url : string) (response_status_code : Z) (json_response : Json)
  : Coroutine Json :=
  call_method (CallAnalyzeResponse url response_status_code json_response)
              (_analyze_response url response_status_code json_response).

(** [DictionaryApiParser(json_response)] *)
Definition new_DictionaryApiParser (json_response : Json) : Coroutine DictionaryApiParser :=
  call_pure (CallDictionaryApiParser json_response) (DictionaryApiParser_init json_response).

(** [parser.word] *)
Definition parser_word (parser : DictionaryApiParser) : Coroutine Word :=
  call_pure (CallParserWord parser) (DictionaryApiParser_word parser).

(** The signature shared by the three fetch methods. *)
Definition Fetch (R : Type) : Type := string -> option LanguageCodes -> Coroutine R.

(** The state in which the transport is entered: the url has been built
    and the request has been logged. *)
Definition request_logged (word : string) (language_code : option LanguageCodes)
  (url : string) (resolved : LanguageCodes) (r : Run) : Run :=
  {| client := client r;
     world := logger_info (request_log_message word resolved url) (world r);
     calls := calls r ++ [CallGenerateUrl word language_code;
                          CallLoggerInfo (request_log_message word resolved url)] |}.

(** What a caller can see of a finished call: the outcome, the client and
    the world (the history is bookkeeping). *)
Definition visible {A} (x : Outcome Exc A * Run) : Outcome Exc A * Self * World :=
  (fst x, client (snd x), world (snd x)).

(** A method that leaves the client object as it found it. *)
Definition preserves_client {A} (m : Method A) : Prop :=
  forall self w, snd (fst (m self w)) = self.

(** A method whose outcome is a function of its arguments alone. *)
Definition deterministic {A} (m : Method A) : Prop :=
  forall self1 w1 self2 w2, fst (fst (m self1 w1)) = fst (fst (m self2 w2)).

Section Transport.

Context {transport : AsyncTransport}.

(** [await self.fetch_api_response(url)] *)
Definition self_fetch_api_response (url : string) : Coroutine (Z * Json) :=
  call_method (CallFetchApiResponse url) (fetch_api_response url).

Definition fetch_json : Fetch Json := fun word language_code =>
  '(url, language_code) <- self_generate_url word language_code ;;
  self_logger_info (request_log_message word language_code url) ;;
  '(response_status_code, json_response) <- self_fetch_api_response url ;;
  analyzed_response <- self_analyze_response url response_status_code json_response ;;
  ret analyzed_response.

Definition fetch_parser : Fetch DictionaryApiParser := fun word language_code =>
  json_response <- fetch_json word language_code ;;
  parser <- new_DictionaryApiParser json_response ;;
  ret parser.

Definition fetch_word : Fetch Word := fun word language_code =>
  parser <- fetch_parser word language_code ;;
  word <- parser_word parser ;;
  ret word.

End Transport.

End AsyncClient.

Arguments CallGenerateUrl {LanguageCodes DictionaryApiParser} word language_code.
Arguments CallLoggerInfo {LanguageCodes DictionaryApiParser} message.
Arguments CallFetchApiResponse {LanguageCodes DictionaryApiParser} url.
Arguments CallAnalyzeResponse {LanguageCodes DictionaryApiParser}
  url response_status_code json_response.
Arguments CallDictionaryApiParser {LanguageCodes DictionaryApiParser} json_response.
Arguments CallParserWord {LanguageCodes DictionaryApiParser} parser.
Arguments mkRun {Self World LanguageCodes DictionaryApiParser} client world calls.

(** ** Helpers of the classes this one builds on *)

(** Modelled from the spec: the exception classes of the library (its
    error taxonomy; they are defined outside this module), with the
    failures of a transport and Python's own [ValueError]. *)
Inductive ApiException : Type :=
| WordNotFoundError (url : string)
| DictionaryApiError (status_code : Z) (url : string) (message : Json)
| ParsingError (detail : string)
| UnsupportedLanguageError (identifier : string)
| TransportError (detail : string)
| ValueError (detail : string).

Section SpecModel.

Variables Self World LanguageCodes : Type.

(** The logging hook of the response analyzer (outcome, url, status). *)
Variable log_outcome : string -> Z -> World -> World.

(** The registry's [default()] and the endpoint of a word in a language. *)
Variable default_language_code : LanguageCodes.
Variable api_url : string -> LanguageCodes -> string.

(** Modelled from the spec: the generic text of an error without message. *)
Definition generic_error_message : string := "unexpected error".

(** Modelled from the spec: the success range 200..299. *)
Definition is_success (status_code : Z) : bool :=
  (200 <=? status_code) && (status_code <=? 299).

(** Modelled from the spec: the body's "message" field if present, else
    the generic string. *)
Definition extract_message (decoded_body : Json) : Json :=
  match decoded_body with
  | JObject fields =>
      match json_field "message" fields with
      | Some message => message
      | None => JStr generic_error_message
      end
  | _ => JStr generic_error_message
  end.

(** Modelled from the spec: the response analyzer
    ([BaseDictionaryApiClientInterface._analyze_response], outside this
    module).  A status in 200..299 returns the body unchanged, 404
    raises [WordNotFoundError], any other status raises
    [DictionaryApiError] with the status, the url and the extracted
    message. *)
Definition analyze (url : string) (status_code : Z) (decoded_body : Json)
  : Outcome ApiException Json :=
  if is_success status_code then Returned decoded_body
  else if status_code =? 404 then Raised (WordNotFoundError url)
  else Raised (DictionaryApiError status_code url (extract_message decoded_body)).

(** Modelled from the spec: the analyzer as a method of the client; it logs
    the outcome and leaves the client alone. *)
Definition spec_analyze_response (url : string) (status_code : Z) (decoded_body : Json)
  : Method Self World ApiException Json :=
  fun self w => (analyze url status_code decoded_body, self, log_outcome url status_code w).

(** Modelled from the spec: the URL builder
    ([BaseDictionaryApiClientInterface._generate_url], outside this
    module): an absent language code is the registry's default;
    the result is the endpoint and the language code actually used. *)
Definition spec_generate_url (self : Self) (word : string)
  (language_code : option LanguageCodes) : string * LanguageCodes :=
  let resolved :=
    match language_code with
    | Some code => code
    | None => default_language_code
    end in
  (api_url word resolved, resolved).

(** What a fetch does first when the language code is omitted: the url
    is built, the request is logged and sent, all for the default. *)
Definition default_request (DictionaryApiParser : Type) {logging : Logging World LanguageCodes}
  (word : string) : list (Call LanguageCodes DictionaryApiParser) :=
  [CallGenerateUrl word None;
   CallLoggerInfo (request_log_message word default_language_code
                     (api_url word default_language_code));
   CallFetchApiResponse (api_url word default_language_code)].

(** A client whose analyzer is the one of the spec. *)
Definition with_spec_analyzer
  (generate_url :
     Self -> string -> option LanguageCodes -> Outcome ApiException (string * LanguageCodes))
  : BaseDictionaryApiClientInterface Self World ApiException LanguageCodes :=
  {| _generate_url := generate_url; _analyze_response := spec_analyze_response |}.

(** A client whose URL builder is the one of the spec. *)
Definition with_spec_url_builder (Exc : Type)
  (analyze_response : string -> Z -> Json -> Method Self World Exc Json)
  : BaseDictionaryApiClientInterface Self World Exc LanguageCodes :=
  {| _generate_url := fun self word language_code =>
                        Returned (spec_generate_url self word language_code);
     _analyze_response := analyze_response |}.

End SpecModel.

(** ** A concrete client, to run the definitions *)

Module Fixture.

(** The client has a name; the world is the log; language codes are
    their identifiers; the parser keeps the decoded body. *)
Definition Client : Type := string.
Definition Log : Type := list string.
Definition Language : Type := string.

Definition endpoint (word : string) (language_code : Language) : string :=
  ("https://api.dictionaryapi.dev/api/v2/entries/" ++ language_code ++ "/" ++ word)%string.

Definition hello_body : Json :=
  JList [JObject [("word", JStr "hello");
                  ("phonetics", JList []);
                  ("meanings", JList [])]].

Definition not_found_body : Json :=
  JObject [("title", JStr "No Definitions Found");
           ("message", JStr "Sorry pal, we couldn't find definitions.")].

(** A canned network: four words are known, anything else times out. *)
Definition canned (url : string) : Method Client Log ApiException (Z * Json) :=
  fun self w =>
    if String.eqb url (endpoint "hello" "en") then (Returned (200, hello_body), self, w)
    else if String.eqb url (endpoint "qwzx" "en") then (Returned (404, not_found_body), self, w)
    else if String.eqb url (endpoint "teapot" "en") then (Returned (500, JObject []), self, w)
    else if String.eqb url (endpoint "kettle" "en")
         then (Returned (500, JObject [("message", JStr "x")]), self, w)
    else (Raised (TransportError "timeout"), self, w).

Definition quote (s : string) : string := ("'" ++ s ++ "'")%string.

Definition log_analysis (url : string) (status_code : Z) (w : Log) : Log :=
  (w ++ [("analyzed " ++ url)%string])%list.

(** The URL builder of the spec, which accepts every word. *)
Definition generate_url (self : Client) (word : string) (language_code : option Language)
  : Outcome ApiException (string * Language) :=
  Returned (spec_generate_url "en" endpoint self word language_code).

Definition interface : BaseDictionaryApiClientInterface Client Log ApiException Language :=
  with_spec_analyzer log_analysis generate_url.

Definition transport : AsyncTransport Client Log ApiException :=
  {| fetch_api_response := canned |}.

Definition parsers : ParserClass ApiException Json string :=
  {| DictionaryApiParser_init := fun body =>
       match body with
       | JList (_ :: _) => Returned body
       | _ => Raised (ParsingError "no entries")
       end;
     DictionaryApiParser_word := fun parser =>
       match parser with
       | JList (JObject fields :: _) =>
           match json_field "word" fields with
           | Some (JStr w) => Returned w
           | _ => Raised (ParsingError "word")
           end
       | _ => Raised (ParsingError "word")
       end |}.

Definition logging : Logging Log Language :=
  {| logger_info := fun message w => (w ++ [message])%list;
     repr_str := quote;
     repr_language_code := quote |}.

Definition start : Run Client Log Language Json :=
  mkRun "client" [] [].

(** A state later in the life of another client. *)
Definition later : Run Client Log Language Json :=
  mkRun "other client" ["an earlier line"] [CallFetchApiResponse (endpoint "hello" "en")].

Definition json_of : Fetch Client Log ApiException Language Json Json :=
  fetch_json (interface := interface) (logging := logging) (transport := transport).

Definition parser_of : Fetch Client Log ApiException Language Json Json :=
  fetch_parser (interface := interface) (parsers := parsers) (logging := logging)
    (transport := transport).

Definition word_of : Fetch Client Log ApiException Language Json string :=
  fetch_word (interface := interface) (parsers := parsers) (logging := logging)
    (transport := transport).

End Fixture.

(** ** More bookkeeping on histories *)

Section Histories.

Variables LanguageCodes DictionaryApiParser : Type.




End Histories.

(** ** A second canned network, with bodies the parser rejects *)

Module Sparse.

Import Fixture.

Definition nameless_body : Json := JList [JObject [("phonetics", JList [])]].

(** Two more words answer 200: one with no entry, one with an entry
    that has no "word" field. *)
Definition sparse (url : string) : Method Client Log ApiException (Z * Json) :=
  fun self w =>
    if String.eqb url (endpoint "empty" "en") then (Returned (200, JList []), self, w)
    else if String.eqb url (endpoint "nameless" "en")
         then (Returned (200, nameless_body), self, w)
    else canned url self w.

Definition transport : AsyncTransport Client Log ApiException :=
  {| fetch_api_response := sparse |}.

Definition json_of : Fetch Client Log ApiException Language Json Json :=
  fetch_json (interface := interface) (logging := logging) (transport := transport).

Definition parser_of : Fetch Client Log ApiException Language Json Json :=
  fetch_parser (interface := interface) (parsers := parsers) (logging := logging)
    (transport := transport).

Definition word_of : Fetch Client Log ApiException Language Json string :=
  fetch_word (interface := interface) (parsers := parsers) (logging := logging)
    (transport := transport).

End Sparse.

(** ** Counting the runs of the transport *)

(** 1 for a call that returned, 0 for one that raised. *)
Definition returned_count {Exc A : Type} (o : Outcome Exc A) : nat :=
  match o with
  | Returned _ => 1%nat
  | Raised _ => 0%nat
  end.

Section CountedTransport.

Variables Self World Exc LanguageCodes DictionaryApiParser : Type.

Context {interface : BaseDictionaryApiClientInterface Self World Exc LanguageCodes}
        {logging : Logging World LanguageCodes}
        {transport : AsyncTransport Self World Exc}.

(** A method run in a world that also holds a counter, which it leaves
    alone. *)
Definition keep_count {A} (m : Method Self World Exc A) : Method Self (World * nat) Exc A :=
  fun self wn =>
    let '(o, self', w') := m self (fst wn) in
    (o, self', (w', snd wn)).

(** The transport, made to count its own runs: each time its body is
    run, whatever it does, the counter grows by one. *)
Definition counted_transport : AsyncTransport Self (World * nat) Exc :=
  {| fetch_api_response := fun url self wn =>
       let '(o, self', w') := fetch_api_response url self (fst wn) in
       (o, self', (w', S (snd wn))) |}.

Definition counted_interface
  : BaseDictionaryApiClientInterface Self (World * nat) Exc LanguageCodes :=
  {| _generate_url := fun self word language_code =>
                        _generate_url self word language_code;
     _analyze_response := fun url status body =>
       keep_count (_analyze_response url status body) |}.

Definition counted_logging : Logging (World * nat) LanguageCodes :=
  {| logger_info := fun message wn => (logger_info message (fst wn), snd wn);
     repr_str := fun s => repr_str s;
     repr_language_code := fun language_code => repr_language_code language_code |}.

(** How many times the transport has run. *)
Definition transport_runs (r : Run Self (World * nat) LanguageCodes DictionaryApiParser)
  : nat :=
  snd (world r).

(** The state without the counter. *)
Definition uncounted (r : Run Self (World * nat) LanguageCodes DictionaryApiParser)
  : Run Self World LanguageCodes DictionaryApiParser :=
  mkRun (client r) (fst (world r)) (calls r).

(** A finished call without the counter. *)
Definition uncounted_result {A}
  (x : Outcome Exc A * Run Self (World * nat) LanguageCodes DictionaryApiParser)
  : Outcome Exc A * Run Self World LanguageCodes DictionaryApiParser :=
  (fst x, uncounted (snd x)).

End CountedTransport.

Arguments counted_transport {Self World Exc transport}.
Arguments counted_interface {Self World Exc LanguageCodes interface}.
Arguments counted_logging {World LanguageCodes logging}.

(** ** Clients that refuse a word, write themselves, or meter requests *)

Module Strict.

Import Fixture.

(** Modelled from the spec: the URL builder takes a non-empty word; this
    one refuses the empty word, before anything is logged or sent. *)
Definition generate_url (self : Client) (word : string) (language_code : option Language)
  : Outcome ApiException (string * Language) :=
  if String.eqb word "" then Raised (ValueError "empty word")
  else Fixture.generate_url self word language_code.

Definition interface : BaseDictionaryApiClientInterface Client Log ApiException Language :=
  with_spec_analyzer log_analysis generate_url.

Definition json_of : Fetch Client Log ApiException Language Json Json :=
  fetch_json (interface := interface) (logging := logging) (transport := transport).

Definition word_of : Fetch Client Log ApiException Language Json string :=
  fetch_word (interface := interface) (parsers := parsers) (logging := logging)
    (transport := transport).

(** The same client with a transport that counts its runs. *)
Definition counted_word_of : Fetch Client (Log * nat) ApiException Language Json string :=
  fetch_word (interface := counted_interface (interface := interface))
    (parsers := parsers) (logging := counted_logging (logging := logging))
    (transport := counted_transport (transport := transport)).

Definition counted_start : Run Client (Log * nat) Language Json :=
  mkRun "client" ([], 0%nat) [].

End Strict.

Module Stateful.

Import Fixture.

(** A transport that notes on the client that a session was opened. *)
Definition opening (url : string) : Method Client Log ApiException (Z * Json) :=
  fun self w =>
    let '(o, _, w') := canned url self w in
    (o, (self ++ "+session")%string, w').

(** A transport that leaves the client alone and refuses a request once
    the log holds more than one line. *)
Definition metered (url : string) : Method Client Log ApiException (Z * Json) :=
  fun self w =>
    if (2 <=? List.length w)%nat then (Raised (TransportError "rate limit"), self, w)
    else canned url self w.

Definition opening_json_of : Fetch Client Log ApiException Language Json Json :=
  fetch_json (interface := interface) (logging := logging)
    (transport := {| fetch_api_response := opening |}).

Definition metered_word_of : Fetch Client Log ApiException Language Json string :=
  fetch_word (interface := interface) (parsers := parsers) (logging := logging)
    (transport := {| fetch_api_response := metered |}).

End Stateful.

(** * Properties of the shared client logic *)

Local Open Scope list_scope.

Section ClientProperties.

Variables Self World Exc LanguageCodes DictionaryApiParser Word : Type.

Context {interface : BaseDictionaryApiClientInterface Self World Exc LanguageCodes}
        {parsers : ParserClass Exc DictionaryApiParser Word}
        {logging : Logging World LanguageCodes}.

Local Abbreviation State := (Run Self World LanguageCodes DictionaryApiParser).

Ltac flatten_history := rewrite <- ?List.app_assoc; cbn [List.app].

Ltac run_calls :=
  unfold fetch_word, fetch_parser, fetch_json, bind, ret,
    self_generate_url, self_logger_info, self_fetch_api_response,
    self_analyze_response, new_DictionaryApiParser, parser_word,
    call_method, call_pure, call_logger, record, request_logged;
  cbn [client world calls fst snd].

Ltac split_method m :=
  let o := fresh "o" in
  let s := fresh "self'" in
  let w := fresh "w'" in
  let E := fresh "E" in
  destruct m as [[o s] w] eqn:E; cbn [fst snd client world calls] in *.

Lemma transport_calls_app (h1 h2 : list (Call LanguageCodes DictionaryApiParser)) :
  transport_calls (h1 ++ h2) = (transport_calls h1 + transport_calls h2)%nat.
Proof.
  unfold transport_calls. rewrite List.filter_app, List.length_app. reflexivity.
Qed.

Section OneTransport.

Context {transport : AsyncTransport Self World Exc}.

(** The body of [fetch_json], call by call: the url is built and logged,
    the transport runs, and the analyzer runs if the transport returned. *)
Lemma fetch_json_run (word : string) (language_code : option LanguageCodes)
  (r : State) (url : string) (resolved : LanguageCodes) :
  _generate_url (client r) word language_code = Returned (url, resolved) ->
  fetch_json word language_code r =
  match self_fetch_api_response url (request_logged word language_code url resolved r) with
  | (Returned (status, body), r1) => self_analyze_response url status body r1
  | (Raised e, r1) => (Raised e, r1)
  end.
Proof.
  intros Hurl. run_calls. rewrite Hurl. cbn [fst snd client world calls].
  match goal with |- context [fetch_api_response ?u ?c ?w] =>
    split_method (fetch_api_response u c w) end.
  destruct o as [[status body] | e]; cbn [fst snd client world calls];
    [| flatten_history; reflexivity].
  match goal with |- context [_analyze_response ?u ?s ?b ?c ?w] =>
    split_method (_analyze_response u s b c w) end.
  destruct o; flatten_history; reflexivity.
Qed.

(** When the URL builder raises, nothing else is done. *)
Lemma fetch_json_refused (word : string) (language_code : option LanguageCodes)
  (r : State) (e : Exc) :
  _generate_url (client r) word language_code = Raised e ->
  fetch_json word language_code r = (Raised e, record (CallGenerateUrl word language_code) r).
Proof.
  intros Hurl. run_calls. rewrite Hurl. reflexivity.
Qed.

Lemma fetch_parser_run (word : string) (language_code : option LanguageCodes) (r : State) :
  fetch_parser word language_code r =
  match fetch_json word language_code r with
  | (Returned json_response, r') =>
      (DictionaryApiParser_init json_response,
       record (CallDictionaryApiParser json_response) r')
  | (Raised e, r') => (Raised e, r')
  end.
Proof.
  unfold fetch_parser, bind, new_DictionaryApiParser, call_pure, ret.
  destruct (fetch_json word language_code r) as [[j | e] r']; [| reflexivity].
  destruct (DictionaryApiParser_init j); reflexivity.
Qed.

Lemma fetch_word_run (word : string) (language_code : option LanguageCodes) (r : State) :
  fetch_word word language_code r =
  match fetch_parser word language_code r with
  | (Returned parser, r') =>
      (DictionaryApiParser_word parser, record (CallParserWord parser) r')
  | (Raised e, r') => (Raised e, r')
  end.
Proof.
  unfold fetch_word, bind, parser_word, call_pure, ret.
  destruct (fetch_parser word language_code r) as [[p | e] r']; [| reflexivity].
  destruct (DictionaryApiParser_word p); reflexivity.
Qed.

(** C1. [fetch_json word language_code] builds [(url, resolved)] with the
    URL builder, then calls the transport once with that url, then calls
    the analyzer with that url and the status and body the transport
    returned, and its outcome is the analyzer's outcome: the history grows
    by exactly these calls, in this order (with the [logger.info] line
    between the first two), and the final client and world are the ones
    the analyzer left. *)
Theorem fetch_json_pipeline (word : string) (language_code : option LanguageCodes)
  (r : State) (url : string) (resolved : LanguageCodes)
  (status : Z) (body : Json) (self1 : Self) (w1 : World) :
  _generate_url (client r) word language_code = Returned (url, resolved) ->
  fetch_api_response url (client r)
    (logger_info (request_log_message word resolved url) (world r))
    = (Returned (status, body), self1, w1) ->
  let analyzed := _analyze_response url status body self1 w1 in
  fetch_json word language_code r =
  (fst (fst analyzed),
   mkRun (snd (fst analyzed)) (snd analyzed)
     (calls r ++ [CallGenerateUrl word language_code;
                  CallLoggerInfo (request_log_message word resolved url);
                  CallFetchApiResponse url;
                  CallAnalyzeResponse url status body])).
Proof.
  intros Hurl Hresp analyzed.
  rewrite (fetch_json_run _ _ _ Hurl).
  unfold self_fetch_api_response, call_method, request_logged.
  cbn [client world calls]. rewrite Hresp.
  unfold self_analyze_response, call_method. cbn [client world calls].
  subst analyzed. destruct (_analyze_response url status body self1 w1) as [[o s] w].
  cbn [fst snd]. flatten_history. reflexivity.
Qed.

(** C4. [fetch_word] is [fetch_parser] followed by the [word] accessor of
    the parser it returned, and nothing else: an exception of
    [fetch_parser] is the outcome, otherwise the outcome is the value of
    [parser.word] and the only further call is that access. *)
Theorem fetch_word_is_parser_word (word : string) (language_code : option LanguageCodes)
  (r : State) :
  fetch_word word language_code r =
  match fetch_parser word language_code r with
  | (Returned parser, r') =>
      (DictionaryApiParser_word parser,
       mkRun (client r') (world r') (calls r' ++ [CallParserWord parser]))
  | (Raised e, r') => (Raised e, r')
  end.
Proof.
  rewrite fetch_word_run.
  destruct (fetch_parser word language_code r) as [[p | e] r']; reflexivity.
Qed.

(** C5. [fetch_parser] builds the parser from exactly the value returned
    by [fetch_json]: the constructor is called with that value and with
    nothing else, its outcome is the outcome of [fetch_parser], and the
    parsed result of the returned parser is read through its [word]
    accessor (it is what [fetch_word] returns). *)
Theorem fetch_parser_wraps_fetch_json (word : string)
  (language_code : option LanguageCodes) (r : State) :
  fetch_parser word language_code r =
  match fetch_json word language_code r with
  | (Returned json_response, r') =>
      (DictionaryApiParser_init json_response,
       mkRun (client r') (world r') (calls r' ++ [CallDictionaryApiParser json_response]))
  | (Raised e, r') => (Raised e, r')
  end
  /\
  match fetch_parser word language_code r with
  | (Returned parser, _) =>
      fst (fetch_word word language_code r) = DictionaryApiParser_word parser
  | (Raised e, _) => fst (fetch_word word language_code r) = Raised e
  end.
Proof.
  split.
  - rewrite fetch_parser_run.
    destruct (fetch_json word language_code r) as [[j | e] r']; reflexivity.
  - rewrite fetch_word_run.
    destruct (fetch_parser word language_code r) as [[p | e] r']; reflexivity.
Qed.

(** The transport is entered once in [fetch_json] if the URL builder
    returned, and not at all if it raised. *)
Lemma fetch_json_transport_calls (word : string) (language_code : option LanguageCodes)
  (r : State) :
  transport_calls (calls (snd (fetch_json word language_code r)))
  = (transport_calls (calls r)
     + returned_count (_generate_url (client r) word language_code))%nat.
Proof.
  destruct (_generate_url (client r) word language_code) as [[url resolved] | e] eqn:Hurl.
  - rewrite (fetch_json_run _ _ _ Hurl).
    unfold self_fetch_api_response, self_analyze_response, call_method, request_logged.
    cbn [client world calls].
    match goal with |- context [fetch_api_response ?u ?c ?w] =>
      split_method (fetch_api_response u c w) end.
    destruct o as [[status body] | e]; cbn [fst snd client world calls].
    + match goal with |- context [_analyze_response ?u ?s ?b ?c ?w] =>
        split_method (_analyze_response u s b c w) end.
      rewrite !transport_calls_app. cbn. lia.
    + rewrite !transport_calls_app. cbn. lia.
  - rewrite (fetch_json_refused _ _ _ Hurl). cbn [snd record calls].
    rewrite transport_calls_app. cbn. lia.
Qed.

(** The parser and its accessor add no transport call. *)
Lemma fetch_parser_transport_calls (word : string)
  (language_code : option LanguageCodes) (r : State) :
  transport_calls (calls (snd (fetch_parser word language_code r)))
  = transport_calls (calls (snd (fetch_json word language_code r))).
Proof.
  rewrite fetch_parser_run.
  destruct (fetch_json word language_code r) as [[j | e] r']; [| reflexivity].
  cbn [snd record calls]. rewrite transport_calls_app. cbn. lia.
Qed.

Lemma fetch_word_transport_calls (word : string)
  (language_code : option LanguageCodes) (r : State) :
  transport_calls (calls (snd (fetch_word word language_code r)))
  = transport_calls (calls (snd (fetch_parser word language_code r))).
Proof.
  rewrite fetch_word_run.
  destruct (fetch_parser word language_code r) as [[p | e] r']; [| reflexivity].
  cbn [snd record calls]. rewrite transport_calls_app. cbn. lia.
Qed.

(** An exception that leaves [fetch_json] leaves the two methods built on
    it, with the same state. *)
Lemma fetch_json_raise_propagates (word : string) (language_code : option LanguageCodes)
  (r r' : State) (e : Exc) :
  fetch_json word language_code r = (Raised e, r') ->
  fetch_parser word language_code r = (Raised e, r')
  /\ fetch_word word language_code r = (Raised e, r').
Proof.
  intros H.
  assert (Hp : fetch_parser word language_code r = (Raised e, r'))
    by (rewrite fetch_parser_run, H; reflexivity).
  split; [exact Hp |]. rewrite fetch_word_run, Hp. reflexivity.
Qed.

(** C3. An exception raised by the transport, or by the analyzer on the
    transport's response, is the outcome of [fetch_json], of
    [fetch_parser] and of [fetch_word]: the same exception object, in
    the state in which the collaborator raised it (nothing is caught,
    wrapped, retried or run afterwards). *)
Theorem exceptions_propagate (word : string) (language_code : option LanguageCodes)
  (r : State) (url : string) (resolved : LanguageCodes) (e : Exc) (r' : State) :
  _generate_url (client r) word language_code = Returned (url, resolved) ->
  (self_fetch_api_response url (request_logged word language_code url resolved r)
     = (Raised e, r')
   \/ exists status body r1,
        self_fetch_api_response url (request_logged word language_code url resolved r)
          = (Returned (status, body), r1)
        /\ self_analyze_response url status body r1 = (Raised e, r')) ->
  fetch_json word language_code r = (Raised e, r')
  /\ fetch_parser word language_code r = (Raised e, r')
  /\ fetch_word word language_code r = (Raised e, r').
Proof.
  intros Hurl Hraise.
  assert (Hj : fetch_json word language_code r = (Raised e, r')).
  { rewrite (fetch_json_run _ _ _ Hurl).
    destruct Hraise as [Ht | (status & body & r1 & Ht & Ha)]; rewrite Ht.
    - reflexivity.
    - exact Ha. }
  split; [exact Hj |]. apply fetch_json_raise_propagates. exact Hj.
Qed.

(** The parser and its accessor do not touch the client object. *)
Lemma fetch_parser_client (word : string) (language_code : option LanguageCodes)
  (r : State) :
  client (snd (fetch_parser word language_code r))
  = client (snd (fetch_json word language_code r)).
Proof.
  rewrite fetch_parser_run.
  destruct (fetch_json word language_code r) as [[j | e] r']; reflexivity.
Qed.

Lemma fetch_word_client (word : string) (language_code : option LanguageCodes)
  (r : State) :
  client (snd (fetch_word word language_code r))
  = client (snd (fetch_parser word language_code r)).
Proof.
  rewrite fetch_word_run.
  destruct (fetch_parser word language_code r) as [[p | e] r']; reflexivity.
Qed.

Lemma fetch_json_client (word : string) (language_code : option LanguageCodes)
  (r : State) :
  (forall url, preserves_client (fetch_api_response url)) ->
  (forall url status body, preserves_client (_analyze_response url status body)) ->
  client (snd (fetch_json word language_code r)) = client r.
Proof.
  intros Htransport Hanalyzer.
  destruct (_generate_url (client r) word language_code) as [[url resolved] | e] eqn:Hurl;
    [| rewrite (fetch_json_refused _ _ _ Hurl); reflexivity].
  rewrite (fetch_json_run _ _ _ Hurl).
  unfold self_fetch_api_response, self_analyze_response, call_method, request_logged.
  cbn [client world calls].
  match goal with |- context [fetch_api_response ?u ?c ?w] =>
    pose proof (Htransport u c w) as Hc; split_method (fetch_api_response u c w) end.
  subst self'.
  destruct o as [[status body] | e]; cbn [fst snd client world calls]; [| reflexivity].
  match goal with |- context [_analyze_response ?u ?s ?b ?c ?w] =>
    pose proof (Hanalyzer u s b c w) as Hc; split_method (_analyze_response u s b c w) end.
  exact Hc.
Qed.

(** C9 (amended). The three fetch methods write no field of the client
    themselves: with a transport and an analyzer that leave the client
    object as they found it, the client is the same after [fetch_json],
    [fetch_parser] and [fetch_word] as before, whether the call returned
    or raised (from the URL builder, the transport, the analyzer or the
    parser); hence after two fetches, in either order, the client is
    still the one the first of them found.  Nothing is said of the world
    outside the client, through which fetches may influence each
    other. *)
Theorem fetch_preserves_client :
  (forall url, preserves_client (fetch_api_response url)) ->
  (forall url status body, preserves_client (_analyze_response url status body)) ->
  forall (word : string) (language_code : option LanguageCodes) (r : State),
    (client (snd (fetch_json word language_code r)) = client r
     /\ client (snd (fetch_parser word language_code r)) = client r
     /\ client (snd (fetch_word word language_code r)) = client r)
    /\ forall (word' : string) (language_code' : option LanguageCodes),
         client (snd (fetch_word word' language_code'
                        (snd (fetch_word word language_code r)))) = client r
         /\ client (snd (fetch_word word language_code
                           (snd (fetch_word word' language_code' r)))) = client r.
Proof.
  intros Htransport Hanalyzer.
  assert (Hword : forall w lc (s : State), client (snd (fetch_word w lc s)) = client s).
  { intros w lc s. rewrite fetch_word_client, fetch_parser_client.
    apply fetch_json_client; assumption. }
  intros word language_code r. split; [split; [| split] |].
  - apply fetch_json_client; assumption.
  - rewrite fetch_parser_client. apply fetch_json_client; assumption.
  - apply Hword.
  - intros word' language_code'. rewrite !Hword. split; reflexivity.
Qed.

(** The outcome of the parser steps is a function of the outcome of
    [fetch_json]. *)
Lemma fetch_parser_outcome (word : string) (language_code : option LanguageCodes)
  (r : State) :
  fst (fetch_parser word language_code r)
  = match fst (fetch_json word language_code r) with
    | Returned json_response => DictionaryApiParser_init json_response
    | Raised e => Raised e
    end.
Proof.
  rewrite fetch_parser_run.
  destruct (fetch_json word language_code r) as [[j | e] r']; reflexivity.
Qed.

Lemma fetch_word_outcome (word : string) (language_code : option LanguageCodes)
  (r : State) :
  fst (fetch_word word language_code r)
  = match fst (fetch_parser word language_code r) with
    | Returned parser => DictionaryApiParser_word parser
    | Raised e => Raised e
    end.
Proof.
  rewrite fetch_word_run.
  destruct (fetch_parser word language_code r) as [[p | e] r']; reflexivity.
Qed.

Lemma fetch_json_outcome (word : string) (language_code : option LanguageCodes)
  (r1 r2 : State) :
  (forall self1 self2 w lc, _generate_url self1 w lc = _generate_url self2 w lc) ->
  (forall url, deterministic (fetch_api_response url)) ->
  (forall url status body, deterministic (_analyze_response url status body)) ->
  fst (fetch_json word language_code r1) = fst (fetch_json word language_code r2).
Proof.
  intros Hbuilder Htransport Hanalyzer.
  pose proof (Hbuilder (client r2) (client r1) word language_code) as Hurl2.
  destruct (_generate_url (client r1) word language_code) as [[url resolved] | e] eqn:Hurl1;
    [| rewrite (fetch_json_refused _ _ _ Hurl1), (fetch_json_refused _ _ _ Hurl2);
       reflexivity].
  rewrite (fetch_json_run _ _ _ Hurl1), (fetch_json_run _ _ _ Hurl2).
  unfold self_fetch_api_response, self_analyze_response, call_method, request_logged.
  cbn [client world calls].
  set (sent1 := logger_info (request_log_message word resolved url) (world r1)).
  set (sent2 := logger_info (request_log_message word resolved url) (world r2)).
  pose proof (Htransport url (client r1) sent1 (client r2) sent2) as Ho.
  destruct (fetch_api_response url (client r1) sent1) as [[o1 s1] v1].
  destruct (fetch_api_response url (client r2) sent2) as [[o2 s2] v2].
  cbn [fst snd] in Ho. subst o2.
  destruct o1 as [[status body] | e]; cbn [fst snd client world calls]; [| reflexivity].
  pose proof (Hanalyzer url status body s1 v1 s2 v2) as Ho.
  destruct (_analyze_response url status body s1 v1) as [[o1 t1] x1].
  destruct (_analyze_response url status body s2 v2) as [[o2 t2] x2].
  exact Ho.
Qed.

(** C10. With a URL builder, a transport and an analyzer whose results are
    functions of their arguments alone, the outcome of [fetch_json],
    [fetch_parser] and [fetch_word] is a function of the word and of the
    language code alone: two runs on the same arguments, from any two
    states, end with the same returned value or the same exception. *)
Theorem fetch_deterministic :
  (forall self1 self2 w lc, _generate_url self1 w lc = _generate_url self2 w lc) ->
  (forall url, deterministic (fetch_api_response url)) ->
  (forall url status body, deterministic (_analyze_response url status body)) ->
  forall (word : string) (language_code : option LanguageCodes) (r1 r2 : State),
    fst (fetch_json word language_code r1) = fst (fetch_json word language_code r2)
    /\ fst (fetch_parser word language_code r1) = fst (fetch_parser word language_code r2)
    /\ fst (fetch_word word language_code r1) = fst (fetch_word word language_code r2).
Proof.
  intros Hbuilder Htransport Hanalyzer word language_code r1 r2.
  pose proof (fetch_json_outcome word language_code r1 r2 Hbuilder Htransport Hanalyzer)
    as Hjson.
  assert (Hparser : fst (fetch_parser word language_code r1)
                    = fst (fetch_parser word language_code r2))
    by (rewrite !fetch_parser_outcome, Hjson; reflexivity).
  repeat split; [exact Hjson | exact Hparser |].
  rewrite !fetch_word_outcome, Hparser. reflexivity.
Qed.

(** The history of [fetch_json] starts with the url, the log line and the
    transport call, all three for the resolved language code. *)
Lemma fetch_json_history (word : string) (language_code : option LanguageCodes)
  (r : State) (url : string) (resolved : LanguageCodes) :
  _generate_url (client r) word language_code = Returned (url, resolved) ->
  exists rest,
    calls (snd (fetch_json word language_code r))
    = calls r ++ [CallGenerateUrl word language_code;
                  CallLoggerInfo (request_log_message word resolved url);
                  CallFetchApiResponse url] ++ rest.
Proof.
  intros Hurl. rewrite (fetch_json_run _ _ _ Hurl).
  unfold self_fetch_api_response, self_analyze_response, call_method, request_logged.
  cbn [client world calls].
  match goal with |- context [fetch_api_response ?u ?c ?w] =>
    split_method (fetch_api_response u c w) end.
  destruct o as [[status body] | e]; cbn [fst snd client world calls].
  - match goal with |- context [_analyze_response ?u ?s ?b ?c ?w] =>
      split_method (_analyze_response u s b c w) end.
    exists [CallAnalyzeResponse url status body]. flatten_history. reflexivity.
  - exists []. flatten_history. reflexivity.
Qed.

Lemma fetch_parser_history (word : string) (language_code : option LanguageCodes)
  (r : State) :
  exists rest,
    calls (snd (fetch_parser word language_code r))
    = calls (snd (fetch_json word language_code r)) ++ rest.
Proof.
  rewrite fetch_parser_run.
  destruct (fetch_json word language_code r) as [[j | e] r']; cbn [snd record calls].
  - eexists. reflexivity.
  - exists []. rewrite List.app_nil_r. reflexivity.
Qed.

Lemma fetch_word_history (word : string) (language_code : option LanguageCodes)
  (r : State) :
  exists rest,
    calls (snd (fetch_word word language_code r))
    = calls (snd (fetch_parser word language_code r)) ++ rest.
Proof.
  rewrite fetch_word_run.
  destruct (fetch_parser word language_code r) as [[p | e] r']; cbn [snd record calls].
  - eexists. reflexivity.
  - exists []. rewrite List.app_nil_r. reflexivity.
Qed.

(** The language code argument matters through the URL builder only. *)
Lemma fetch_json_visible (word : string) (lc1 lc2 : option LanguageCodes) (r : State) :
  _generate_url (client r) word lc1 = _generate_url (client r) word lc2 ->
  visible (fetch_json word lc1 r) = visible (fetch_json word lc2 r).
Proof.
  intros Hsame.
  destruct (_generate_url (client r) word lc2) as [[url resolved] | e] eqn:Hurl;
    [| rewrite (fetch_json_refused _ _ _ Hsame), (fetch_json_refused _ _ _ Hurl);
       reflexivity].
  rewrite (fetch_json_run _ _ _ Hsame), (fetch_json_run _ _ _ Hurl).
  unfold self_fetch_api_response, self_analyze_response, call_method, request_logged.
  cbn [client world calls].
  match goal with |- context [fetch_api_response ?u ?c ?w] =>
    split_method (fetch_api_response u c w) end.
  destruct o as [[status body] | e]; cbn [fst snd client world calls]; [| reflexivity].
  match goal with |- context [_analyze_response ?u ?s ?b ?c ?w] =>
    split_method (_analyze_response u s b c w) end.
  reflexivity.
Qed.

Lemma fetch_parser_visible (word : string) (lc1 lc2 : option LanguageCodes) (r : State) :
  visible (fetch_json word lc1 r) = visible (fetch_json word lc2 r) ->
  visible (fetch_parser word lc1 r) = visible (fetch_parser word lc2 r).
Proof.
  rewrite !fetch_parser_run. unfold visible.
  destruct (fetch_json word lc1 r) as [[j1 | e1] r1];
    destruct (fetch_json word lc2 r) as [[j2 | e2] r2];
    cbn [fst snd record client world]; intros H; inversion H; reflexivity.
Qed.

Lemma fetch_word_visible (word : string) (lc1 lc2 : option LanguageCodes) (r : State) :
  visible (fetch_parser word lc1 r) = visible (fetch_parser word lc2 r) ->
  visible (fetch_word word lc1 r) = visible (fetch_word word lc2 r).
Proof.
  rewrite !fetch_word_run. unfold visible.
  destruct (fetch_parser word lc1 r) as [[p1 | e1] r1];
    destruct (fetch_parser word lc2 r) as [[p2 | e2] r2];
    cbn [fst snd record client world]; intros H; inversion H; reflexivity.
Qed.

End OneTransport.

End ClientProperties.

(** * The status policy of the analyzer, seen through [fetch_json] *)

Section AnalyzerOfTheSpec.

Variables Self World LanguageCodes DictionaryApiParser Word : Type.
Variable log_outcome : string -> Z -> World -> World.
Variable generate_url :
  Self -> string -> option LanguageCodes -> Outcome ApiException (string * LanguageCodes).

Context {logging : Logging World LanguageCodes}
        {transport : AsyncTransport Self World ApiException}.

Local Abbreviation State := (Run Self World LanguageCodes DictionaryApiParser).

Lemma extract_message_present (fields : list (string * Json)) (message : Json) :
  json_field "message" fields = Some message ->
  extract_message (JObject fields) = message.
Proof. intros H. unfold extract_message. rewrite H. reflexivity. Qed.

Lemma extract_message_absent (body : Json) :
  (forall fields, body = JObject fields -> json_field "message" fields = None) ->
  extract_message body = JStr generic_error_message.
Proof.
  intros H. destruct body; try reflexivity.
  unfold extract_message. rewrite (H fields eq_refl). reflexivity.
Qed.

(** C2. With the analyzer of the spec, when the transport answers
    [(status, body)] for the url of the word: [fetch_json] returns [body]
    itself for a status in 200..299, raises [WordNotFoundError] for 404,
    and for any other status raises [DictionaryApiError] with that status,
    the url that was requested and a message, which is the body's
    "message" field when the body has one and the generic text when it
    has none. *)
Theorem fetch_json_status_policy (word : string) (language_code : option LanguageCodes)
  (r : State) (url : string) (resolved : LanguageCodes)
  (status : Z) (body : Json) (self1 : Self) (w1 : World) :
  generate_url (client r) word language_code = Returned (url, resolved) ->
  fetch_api_response url (client r)
    (logger_info (request_log_message word resolved url) (world r))
    = (Returned (status, body), self1, w1) ->
  let outcome :=
    fst (fetch_json (interface := with_spec_analyzer log_outcome generate_url)
           word language_code r) in
  (200 <= status <= 299 -> outcome = Returned body)
  /\ (status = 404 -> outcome = Raised (WordNotFoundError url))
  /\ (~ 200 <= status <= 299 -> status <> 404 ->
      exists message,
        outcome = Raised (DictionaryApiError status url message)
        /\ (forall fields m,
              body = JObject fields -> json_field "message" fields = Some m ->
              message = m)
        /\ ((forall fields, body = JObject fields -> json_field "message" fields = None) ->
            message = JStr generic_error_message)).
Proof.
  intros Hurl Hresp outcome.
  assert (Houtcome : outcome = analyze url status body).
  { subst outcome.
    rewrite (fetch_json_run
               (interface := with_spec_analyzer log_outcome generate_url)
               (DictionaryApiParser := DictionaryApiParser)
               word language_code r Hurl).
    unfold self_fetch_api_response, call_method, request_logged.
    cbn [client world calls]. rewrite Hresp. reflexivity. }
  rewrite Houtcome. unfold analyze, is_success. repeat split.
  - intros [Hlo Hhi].
    apply Z.leb_le in Hlo. apply Z.leb_le in Hhi. rewrite Hlo, Hhi. reflexivity.
  - intros ->. reflexivity.
  - intros Hrange Hnot.
    assert (Hfail : (200 <=? status) && (status <=? 299) = false).
    { apply Bool.andb_false_iff.
      destruct (Z.leb_spec 200 status); [| now left].
      destruct (Z.leb_spec status 299); [| now right]. exfalso; apply Hrange; lia. }
    rewrite Hfail. apply Z.eqb_neq in Hnot. rewrite Hnot.
    exists (extract_message body). repeat split.
    + intros fields m -> Hm. apply extract_message_present. exact Hm.
    + apply extract_message_absent.
Qed.

End AnalyzerOfTheSpec.

(** * The default language, seen through the three fetch methods *)

Section UrlBuilderOfTheSpec.

Variables Self World Exc LanguageCodes DictionaryApiParser Word : Type.
Variable default_language_code : LanguageCodes.
Variable api_url : string -> LanguageCodes -> string.
Variable analyze_response : string -> Z -> Json -> Method Self World Exc Json.

Context {parsers : ParserClass Exc DictionaryApiParser Word}
        {logging : Logging World LanguageCodes}
        {transport : AsyncTransport Self World Exc}.

Local Abbreviation State := (Run Self World LanguageCodes DictionaryApiParser).

Local Abbreviation built :=
  (with_spec_url_builder default_language_code api_url analyze_response).
Local Abbreviation json_of := (fetch_json (interface := built)).
Local Abbreviation parser_of := (fetch_parser (interface := built)).
Local Abbreviation word_of := (fetch_word (interface := built)).
Local Abbreviation default_calls :=
  (default_request default_language_code api_url DictionaryApiParser).

(** C8. The three methods have the one signature [Fetch] (a word and an
    optional language code).  With the URL builder of the spec, a call
    without a language code logs the request with the registry's default
    and sends it to the endpoint of the default, and what the caller sees
    (outcome, client, world) is what the same call with the default
    passed explicitly gives. *)
Theorem omitted_language_code_is_default (word : string) (r : State) :
  ((exists rest, calls (snd (json_of word None r))
                 = calls r ++ default_calls word ++ rest)
   /\ (exists rest, calls (snd (parser_of word None r))
                    = calls r ++ default_calls word ++ rest)
   /\ (exists rest, calls (snd (word_of word None r))
                    = calls r ++ default_calls word ++ rest))
  /\ visible (json_of word None r)
     = visible (json_of word (Some default_language_code) r)
  /\ visible (parser_of word None r)
     = visible (parser_of word (Some default_language_code) r)
  /\ visible (word_of word None r)
     = visible (word_of word (Some default_language_code) r).
Proof.
  assert (Hurl : _generate_url (BaseDictionaryApiClientInterface := built)
                   (client r) word None
                 = Returned (api_url word default_language_code, default_language_code))
    by reflexivity.
  destruct (fetch_json_history (interface := built) word None r Hurl) as [rest1 H1].
  destruct (fetch_parser_history (interface := built) (Word := Word) word None r)
    as [rest2 H2].
  destruct (fetch_word_history (interface := built) (Word := Word) word None r)
    as [rest3 H3].
  assert (Hjson : visible (json_of word None r)
                  = visible (json_of word (Some default_language_code) r))
    by (apply (fetch_json_visible (interface := built)); reflexivity).
  assert (Hparser : visible (parser_of word None r)
                    = visible (parser_of word (Some default_language_code) r))
    by (apply (fetch_parser_visible (interface := built)); exact Hjson).
  split; [repeat split |
          repeat split; [exact Hjson | exact Hparser |
                         apply (fetch_word_visible (interface := built)); exact Hparser]].
  - exists rest1. exact H1.
  - exists (rest1 ++ rest2). rewrite H2, H1. unfold default_request.
    rewrite <- !List.app_assoc. reflexivity.
  - exists (rest1 ++ rest2 ++ rest3). rewrite H3, H2, H1. unfold default_request.
    rewrite <- !List.app_assoc. reflexivity.
Qed.

End UrlBuilderOfTheSpec.

(** * The properties at work on the concrete client *)

Section Runs.

Import Fixture.

Lemma canned_preserves_client (url : string) :
  preserves_client (fetch_api_response (AsyncTransport := transport) url).
Proof.
  intros self w. cbn. unfold canned. repeat destruct (String.eqb _ _); reflexivity.
Defined.

Lemma canned_deterministic (url : string) :
  deterministic (fetch_api_response (AsyncTransport := transport) url).
Proof.
  intros self1 w1 self2 w2. cbn. unfold canned.
  repeat destruct (String.eqb _ _); reflexivity.
Defined.

(** [fetch_json "hello"]: the four calls, in order, and the body as the
    analyzer returned it. *)
Lemma fetch_json_pipeline_witness :
  json_of "hello" None start
  = (Returned hello_body,
     mkRun "client"
       [request_log_message (logging := logging) "hello" "en" (endpoint "hello" "en");
        ("analyzed " ++ endpoint "hello" "en")%string]
       [CallGenerateUrl "hello" None;
        CallLoggerInfo
          (request_log_message (logging := logging) "hello" "en" (endpoint "hello" "en"));
        CallFetchApiResponse (endpoint "hello" "en");
        CallAnalyzeResponse (endpoint "hello" "en") 200 hello_body]).
Proof.
  exact (fetch_json_pipeline (interface := interface) (logging := logging)
           (transport := transport) (DictionaryApiParser := Json)
           "hello" None start
           (url := endpoint "hello" "en") (resolved := "en")
           (status := 200) (body := hello_body) (self1 := "client")
           eq_refl eq_refl).
Defined.

(** 200, 404, and 500 with and without a "message" field. *)
Lemma fetch_json_status_policy_witness :
  fst (json_of "hello" None start) = Returned hello_body
  /\ fst (json_of "qwzx" None start) = Raised (WordNotFoundError (endpoint "qwzx" "en"))
  /\ fst (json_of "teapot" None start)
     = Raised (DictionaryApiError 500 (endpoint "teapot" "en") (JStr "unexpected error"))
  /\ fst (json_of "kettle" None start)
     = Raised (DictionaryApiError 500 (endpoint "kettle" "en") (JStr "x")).
Proof.
  split; [| split; [| split]].
  - refine (proj1 (fetch_json_status_policy (DictionaryApiParser := Json)
                     log_analysis generate_url
                     (logging := logging) (transport := transport)
                     "hello" None start (self1 := "client") eq_refl eq_refl) _).
    lia.
  - refine (proj1 (proj2 (fetch_json_status_policy (DictionaryApiParser := Json)
                     log_analysis generate_url
                     (logging := logging) (transport := transport)
                     "qwzx" None start (self1 := "client") eq_refl eq_refl)) _).
    reflexivity.
  - destruct (proj2 (proj2 (fetch_json_status_policy (DictionaryApiParser := Json)
                     log_analysis generate_url
                     (logging := logging) (transport := transport)
                     "teapot" None start (self1 := "client") eq_refl eq_refl)))
      as (message & Hraised & _ & Habsent); [lia | lia |].
    rewrite <- Habsent at 1; [exact Hraised |].
    intros fields Hbody. inversion Hbody. reflexivity.
  - destruct (proj2 (proj2 (fetch_json_status_policy (DictionaryApiParser := Json)
                     log_analysis generate_url
                     (logging := logging) (transport := transport)
                     "kettle" None start (self1 := "client") eq_refl eq_refl)))
      as (message & Hraised & Hpresent & _); [lia | lia |].
    rewrite <- (Hpresent [("message", JStr "x")] (JStr "x") eq_refl eq_refl) at 1.
    exact Hraised.
Defined.

(** A timeout of the transport and a 404 turned into an exception by the
    analyzer both reach the caller of [fetch_word]. *)
Lemma exceptions_propagate_witness :
  word_of "hello" (Some "fr") start
  = (Raised (TransportError "timeout"),
     mkRun "client"
       [request_log_message (logging := logging) "hello" "fr" (endpoint "hello" "fr")]
       [CallGenerateUrl "hello" (Some "fr");
        CallLoggerInfo
          (request_log_message (logging := logging) "hello" "fr" (endpoint "hello" "fr"));
        CallFetchApiResponse (endpoint "hello" "fr")])
  /\ fst (word_of "qwzx" None start) = Raised (WordNotFoundError (endpoint "qwzx" "en")).
Proof.
  split.
  - refine (proj2 (proj2 (exceptions_propagate
              (interface := interface) (parsers := parsers) (logging := logging)
              (transport := transport)
              "hello" (Some "fr") start
              (url := endpoint "hello" "fr") (resolved := "fr")
              (e := TransportError "timeout") eq_refl (or_introl eq_refl)))).
  - refine (f_equal fst (proj2 (proj2 (exceptions_propagate
              (interface := interface) (parsers := parsers) (logging := logging)
              (transport := transport)
              "qwzx" None start
              (url := endpoint "qwzx" "en") (resolved := "en")
              (e := WordNotFoundError (endpoint "qwzx" "en"))
              (r' := snd (json_of "qwzx" None start))
              eq_refl _)))).
    right. exists 404, not_found_body.
    exists (snd (self_fetch_api_response (transport := transport)
                   (endpoint "qwzx" "en")
                   (request_logged (logging := logging) "qwzx" None
                      (endpoint "qwzx" "en") "en" start))).
    split; reflexivity.
Defined.

(** The client is the same after a lookup that fails with 404. *)
Lemma fetch_preserves_client_witness :
  client (snd (word_of "qwzx" None start)) = "client"%string.
Proof.
  refine (proj2 (proj2 (proj1 (fetch_preserves_client
            (interface := interface) (parsers := parsers) (logging := logging)
            (transport := transport)
            canned_preserves_client _ "qwzx" None start)))).
  intros url status body self w. reflexivity.
Defined.

(** The same word looked up from two different states. *)
Lemma fetch_deterministic_witness :
  fst (word_of "hello" None start) = fst (word_of "hello" None later).
Proof.
  refine (proj2 (proj2 (fetch_deterministic
            (interface := interface) (parsers := parsers) (logging := logging)
            (transport := transport)
            _ canned_deterministic _ "hello" None start later))).
  - intros self1 self2 w lc. reflexivity.
  - intros url status body self1 w1 self2 w2. reflexivity.
Defined.

(** Runs of the three methods on the canned network. *)

Example word_of_hello : fst (word_of "hello" None start) = Returned "hello"%string.
Proof. reflexivity. Qed.

Example parser_of_hello : fst (parser_of "hello" (Some "en") start) = Returned hello_body.
Proof. reflexivity. Qed.

Example parser_of_kettle :
  parser_of "kettle" None start
  = (Raised (DictionaryApiError 500 (endpoint "kettle" "en") (JStr "x")),
     snd (json_of "kettle" None start)).
Proof. reflexivity. Qed.

Example one_more_transport_call :
  transport_calls (calls later) = 1%nat
  /\ transport_calls (calls (snd (word_of "hello" None later))) = 2%nat
  /\ transport_calls (calls (snd (word_of "hello" (Some "fr") later))) = 2%nat
  /\ transport_calls (calls (snd (word_of "qwzx" None later))) = 2%nat.
Proof. repeat split. Qed.

Example default_is_english :
  calls (snd (json_of "hello" None start))
  = default_request "en" endpoint Json (logging := logging) "hello"
    ++ [CallAnalyzeResponse (endpoint "hello" "en") 200 hello_body].
Proof. reflexivity. Qed.

End Runs.

(** * Further properties of the three fetch methods *)

Section FetchOutcomes.

Variables Self World Exc LanguageCodes DictionaryApiParser Word : Type.

Context {interface : BaseDictionaryApiClientInterface Self World Exc LanguageCodes}
        {parsers : ParserClass Exc DictionaryApiParser Word}
        {logging : Logging World LanguageCodes}
        {transport : AsyncTransport Self World Exc}.

Local Abbreviation State := (Run Self World LanguageCodes DictionaryApiParser).

Ltac run_transport :=
  unfold self_fetch_api_response, self_analyze_response, call_method, request_logged;
  cbn [client world calls fst snd].


(** X3. When [fetch_json] returns a value, the transport had returned a
    status and a body for the url of the word, the analyzer had returned
    that very value for them, and the history grew by the four calls. *)
Theorem fetch_json_returns_inv (word : string) (language_code : option LanguageCodes)
  (r r' : State) (url : string) (resolved : LanguageCodes) (json_response : Json) :
  _generate_url (client r) word language_code = Returned (url, resolved) ->
  fetch_json word language_code r = (Returned json_response, r') ->
  exists status body self1 w1,
    fetch_api_response url (client r)
      (logger_info (request_log_message word resolved url) (world r))
      = (Returned (status, body), self1, w1)
    /\ _analyze_response url status body self1 w1
       = (Returned json_response, client r', world r')
    /\ calls r' = calls r ++ [CallGenerateUrl word language_code;
                              CallLoggerInfo (request_log_message word resolved url);
                              CallFetchApiResponse url;
                              CallAnalyzeResponse url status body].
Proof.
  intros Hurl Hret. rewrite (fetch_json_run _ _ _ Hurl) in Hret.
  revert Hret. run_transport.
  destruct (fetch_api_response url (client r)
              (logger_info (request_log_message word resolved url) (world r)))
    as [[[[status body] | e] self1] w1]; cbn [fst snd client world calls];
    [| discriminate].
  destruct (_analyze_response url status body self1 w1) as [[o self2] w2] eqn:Ha.
  intros Hret. inversion Hret; subst. cbn [client world calls].
  exists status, body, self1, w1. repeat split.
  - exact Ha.
  - rewrite <- !List.app_assoc. reflexivity.
Qed.

(** X2. [fetch_word] returns a word exactly when the whole chain
    succeeded: [fetch_json] returned a body, the parser was built from it
    and its [word] accessor returned that word. *)
Theorem fetch_word_returns_iff (word : string) (language_code : option LanguageCodes)
  (r : State) (result : Word) :
  fst (fetch_word word language_code r) = Returned result
  <-> exists json_response parser,
        fst (fetch_json word language_code r) = Returned json_response
        /\ DictionaryApiParser_init json_response = Returned parser
        /\ DictionaryApiParser_word parser = Returned result.
Proof.
  rewrite fetch_word_run, fetch_parser_run.
  destruct (fetch_json word language_code r) as [[j | e] r1]; cbn [fst snd].
  - destruct (DictionaryApiParser_init j) as [p | e] eqn:Hinit; cbn [fst snd].
    + split.
      * intros Hw. exists j, p. repeat split; assumption.
      * intros (j' & p' & Hj & Hp & Hw). inversion Hj; subst j'.
        rewrite Hinit in Hp. inversion Hp; subst p'. exact Hw.
    + split; [discriminate |].
      intros (j' & p' & Hj & Hp & _). inversion Hj; subst j'.
      rewrite Hinit in Hp. discriminate.
  - split; [discriminate |]. intros (j' & p' & Hj & _). discriminate.
Qed.

(** X1. A failure of parsing reaches the caller: when the parser
    constructor raises on the body [fetch_json] returned, [fetch_parser]
    and [fetch_word] raise that exception and the [word] accessor is never
    read; when the accessor raises, [fetch_word] raises that exception. *)
Theorem parsing_failures_propagate (word : string) (language_code : option LanguageCodes)
  (r r1 : State) (e : Exc) :
  (forall json_response,
     fetch_json word language_code r = (Returned json_response, r1) ->
     DictionaryApiParser_init json_response = Raised e ->
     fetch_parser word language_code r
       = (Raised e, record (CallDictionaryApiParser json_response) r1)
     /\ fetch_word word language_code r
       = (Raised e, record (CallDictionaryApiParser json_response) r1))
  /\ (forall parser,
        fetch_parser word language_code r = (Returned parser, r1) ->
        DictionaryApiParser_word parser = Raised e ->
        fetch_word word language_code r = (Raised e, record (CallParserWord parser) r1)).
Proof.
  split.
  - intros j Hj Hinit.
    assert (Hp : fetch_parser word language_code r
                 = (Raised e, record (CallDictionaryApiParser j) r1))
      by (rewrite fetch_parser_run, Hj, Hinit; reflexivity).
    split; [exact Hp |]. rewrite fetch_word_run, Hp. reflexivity.
  - intros p Hp Hword. rewrite fetch_word_run, Hp, Hword. reflexivity.
Qed.

(** X4. The class raises nothing of its own: an exception that leaves
    [fetch_word] was raised by the URL builder (and then nothing else was
    done), or, the builder having returned, by the transport, by the
    analyzer on the transport's response, by the parser constructor on
    the body [fetch_json] returned, or by the [word] accessor of the
    parser [fetch_parser] returned; the state is the one of that raise. *)
Theorem fetch_word_raise_origin (word : string) (language_code : option LanguageCodes)
  (r r' : State) (e : Exc) :
  fetch_word word language_code r = (Raised e, r') ->
  (_generate_url (client r) word language_code = Raised e
   /\ r' = record (CallGenerateUrl word language_code) r)
  \/ exists url resolved,
       _generate_url (client r) word language_code = Returned (url, resolved)
       /\ (self_fetch_api_response url (request_logged word language_code url resolved r)
             = (Raised e, r')
           \/ (exists status body r1,
                 self_fetch_api_response url
                   (request_logged word language_code url resolved r)
                   = (Returned (status, body), r1)
                 /\ self_analyze_response url status body r1 = (Raised e, r'))
           \/ (exists json_response r1,
                 fetch_json word language_code r = (Returned json_response, r1)
                 /\ new_DictionaryApiParser json_response r1 = (Raised e, r'))
           \/ (exists parser r1,
                 fetch_parser word language_code r = (Returned parser, r1)
                 /\ parser_word parser r1 = (Raised e, r'))).
Proof.
  intros Hraise. rewrite fetch_word_run in Hraise.
  destruct (_generate_url (client r) word language_code) as [[url resolved] | e0] eqn:Hurl.
  - right. exists url, resolved. split; [reflexivity |].
    destruct (fetch_parser word language_code r) as [[p | e1] r1] eqn:Hp.
    + right; right; right. exists p, r1. split; [reflexivity |].
      unfold parser_word, call_pure. exact Hraise.
    + inversion Hraise; subst e1 r1. clear Hraise.
      rewrite fetch_parser_run in Hp.
      destruct (fetch_json word language_code r) as [[j | e1] r1] eqn:Hj.
      * right; right; left. exists j, r1. split; [reflexivity |].
        unfold new_DictionaryApiParser, call_pure. exact Hp.
      * inversion Hp; subst e1 r1. clear Hp.
        rewrite (fetch_json_run _ _ _ Hurl) in Hj.
        destruct (self_fetch_api_response url
                    (request_logged word language_code url resolved r))
          as [[[status body] | e1] r1] eqn:Ht.
        -- right; left. exists status, body, r1. split; [reflexivity | exact Hj].
        -- left. inversion Hj. reflexivity.
  - left. rewrite fetch_parser_run, (fetch_json_refused _ _ _ Hurl) in Hraise.
    inversion Hraise. split; reflexivity.
Qed.

End FetchOutcomes.

Section FetchHistories.

Variables Self World Exc LanguageCodes DictionaryApiParser Word : Type.

Context {interface : BaseDictionaryApiClientInterface Self World Exc LanguageCodes}
        {parsers : ParserClass Exc DictionaryApiParser Word}
        {logging : Logging World LanguageCodes}
        {transport : AsyncTransport Self World Exc}.

Local Abbreviation State := (Run Self World LanguageCodes DictionaryApiParser).

(** The three calls a fetch starts with once its url is built. *)
Local Abbreviation request word language_code url resolved :=
  [CallGenerateUrl (DictionaryApiParser := DictionaryApiParser) word language_code;
   CallLoggerInfo (request_log_message word resolved url);
   CallFetchApiResponse url].






(** X8. The language code reaches a fetch through the URL builder only:
    two language codes for which the builder gives the same url and
    resolved code give the same outcome, client and world, in all three
    methods. *)
Theorem language_code_only_through_url_builder (word : string)
  (language_code1 language_code2 : option LanguageCodes) (r : State) :
  _generate_url (client r) word language_code1
    = _generate_url (client r) word language_code2 ->
  visible (fetch_json word language_code1 r) = visible (fetch_json word language_code2 r)
  /\ visible (fetch_parser word language_code1 r)
     = visible (fetch_parser word language_code2 r)
  /\ visible (fetch_word word language_code1 r)
     = visible (fetch_word word language_code2 r).
Proof.
  intros Hsame.
  pose proof (fetch_json_visible word language_code1 language_code2 r Hsame) as Hjson.
  pose proof (fetch_parser_visible (Word := Word) word language_code1 language_code2 r Hjson)
    as Hparser.
  split; [exact Hjson |]. split; [exact Hparser |].
  apply fetch_word_visible. exact Hparser.
Qed.

End FetchHistories.

(** * How many times the transport runs *)

Section CountedRuns.

Variables Self World Exc LanguageCodes DictionaryApiParser Word : Type.

Context {interface : BaseDictionaryApiClientInterface Self World Exc LanguageCodes}
        {parsers : ParserClass Exc DictionaryApiParser Word}
        {logging : Logging World LanguageCodes}
        {transport : AsyncTransport Self World Exc}.

Local Abbreviation Counted := (Run Self (World * nat) LanguageCodes DictionaryApiParser).

(** The three methods of the client whose transport counts its runs. *)
Local Abbreviation counted_json :=
  (fetch_json (interface := counted_interface) (logging := counted_logging)
     (transport := counted_transport) (DictionaryApiParser := DictionaryApiParser)).
Local Abbreviation counted_parser :=
  (fetch_parser (interface := counted_interface) (parsers := parsers)
     (logging := counted_logging) (transport := counted_transport)).
Local Abbreviation counted_word :=
  (fetch_word (interface := counted_interface) (parsers := parsers)
     (logging := counted_logging) (transport := counted_transport)).

Ltac run_counted :=
  unfold self_fetch_api_response, self_analyze_response, call_method, request_logged,
    uncounted_result, uncounted, transport_runs, record;
  cbn [client world calls fst snd fetch_api_response _analyze_response logger_info
       counted_transport counted_interface counted_logging];
  unfold keep_count; cbn [client world calls fst snd].

(** Counting changes nothing else in a run of [fetch_json]. *)
Lemma counted_json_uncounted (word : string) (language_code : option LanguageCodes)
  (r : Counted) :
  uncounted_result (counted_json word language_code r)
  = fetch_json word language_code (uncounted r).
Proof.
  destruct (_generate_url (client r) word language_code) as [[url resolved] | e] eqn:Hurl.
  - rewrite (fetch_json_run (interface := counted_interface) (logging := counted_logging)
               (transport := counted_transport) word language_code r Hurl).
    rewrite (fetch_json_run word language_code (uncounted r) Hurl).
    run_counted.
    destruct (fetch_api_response url (client r)
                (logger_info (request_log_message word resolved url) (fst (world r))))
      as [[[[status body] | e] self1] w1]; run_counted; [| reflexivity].
    destruct (_analyze_response url status body self1 w1) as [[o self2] w2].
    reflexivity.
  - rewrite (fetch_json_refused (interface := counted_interface)
               (logging := counted_logging) (transport := counted_transport)
               word language_code r Hurl).
    rewrite (fetch_json_refused word language_code (uncounted r) Hurl).
    reflexivity.
Qed.

Lemma counted_parser_uncounted (word : string) (language_code : option LanguageCodes)
  (r : Counted) :
  uncounted_result (counted_parser word language_code r)
  = fetch_parser word language_code (uncounted r).
Proof.
  rewrite !fetch_parser_run, <- counted_json_uncounted.
  destruct (counted_json word language_code r) as [[j | e] r1]; reflexivity.
Qed.

Lemma counted_word_uncounted (word : string) (language_code : option LanguageCodes)
  (r : Counted) :
  uncounted_result (counted_word word language_code r)
  = fetch_word word language_code (uncounted r).
Proof.
  rewrite !fetch_word_run, <- counted_parser_uncounted.
  destruct (counted_parser word language_code r) as [[p | e] r1]; reflexivity.
Qed.

(** The body of the transport is run once in [fetch_json] if the URL
    builder returned, and not at all if it raised. *)
Lemma counted_json_runs (word : string) (language_code : option LanguageCodes)
  (r : Counted) :
  transport_runs (snd (counted_json word language_code r))
  = (transport_runs r + returned_count (_generate_url (client r) word language_code))%nat.
Proof.
  destruct (_generate_url (client r) word language_code) as [[url resolved] | e] eqn:Hurl.
  - rewrite (fetch_json_run (interface := counted_interface) (logging := counted_logging)
               (transport := counted_transport) word language_code r Hurl).
    run_counted.
    destruct (fetch_api_response url (client r)
                (logger_info (request_log_message word resolved url) (fst (world r))))
      as [[[[status body] | e] self1] w1]; run_counted; cbn [returned_count].
    + destruct (_analyze_response url status body self1 w1) as [[o self2] w2].
      cbn [fst snd world]. lia.
    + lia.
  - rewrite (fetch_json_refused (interface := counted_interface)
               (logging := counted_logging) (transport := counted_transport)
               word language_code r Hurl).
    cbn [snd record world returned_count transport_runs]. unfold transport_runs.
    cbn [world record]. lia.
Qed.

(** The parser steps do not run the transport. *)
Lemma counted_parser_runs (word : string) (language_code : option LanguageCodes)
  (r : Counted) :
  transport_runs (snd (counted_parser word language_code r))
  = transport_runs (snd (counted_json word language_code r)).
Proof.
  rewrite fetch_parser_run.
  destruct (counted_json word language_code r) as [[j | e] r1]; reflexivity.
Qed.

Lemma counted_word_runs (word : string) (language_code : option LanguageCodes)
  (r : Counted) :
  transport_runs (snd (counted_word word language_code r))
  = transport_runs (snd (counted_parser word language_code r)).
Proof.
  rewrite fetch_word_run.
  destruct (counted_parser word language_code r) as [[p | e] r1]; reflexivity.
Qed.

(** C6 (amended). In one call of [fetch_json], [fetch_parser] or
    [fetch_word] the transport primitive runs at most once: exactly once
    when the URL builder returns, however the call then ends (returned
    value, or exception of the transport, of the analyzer or of the
    parser: no retry, and never skipped before a successful return), and
    not at all when the URL builder raises.  The runs are counted by the
    transport itself, in a counter that the run of the client does not
    otherwise depend on, and the history of the calls agrees with the
    counter. *)
Theorem transport_runs_once_unless_refused (word : string)
  (language_code : option LanguageCodes) (r : Counted) :
  let sent := returned_count (_generate_url (client r) word language_code) in
  (transport_runs (snd (counted_json word language_code r)) = (transport_runs r + sent)%nat
   /\ transport_runs (snd (counted_parser word language_code r))
      = (transport_runs r + sent)%nat
   /\ transport_runs (snd (counted_word word language_code r))
      = (transport_runs r + sent)%nat)
  /\ (uncounted_result (counted_json word language_code r)
        = fetch_json word language_code (uncounted r)
      /\ uncounted_result (counted_parser word language_code r)
         = fetch_parser word language_code (uncounted r)
      /\ uncounted_result (counted_word word language_code r)
         = fetch_word word language_code (uncounted r))
  /\ (transport_calls (calls (snd (fetch_json word language_code (uncounted r))))
        = (transport_calls (calls r) + sent)%nat
      /\ transport_calls (calls (snd (fetch_parser word language_code (uncounted r))))
         = (transport_calls (calls r) + sent)%nat
      /\ transport_calls (calls (snd (fetch_word word language_code (uncounted r))))
         = (transport_calls (calls r) + sent)%nat).
Proof.
  intros sent. subst sent. split; [| split].
  - split; [| split].
    + apply counted_json_runs.
    + rewrite counted_parser_runs. apply counted_json_runs.
    + rewrite counted_word_runs, counted_parser_runs. apply counted_json_runs.
  - split; [| split].
    + apply counted_json_uncounted.
    + apply counted_parser_uncounted.
    + apply counted_word_uncounted.
  - split; [| split].
    + apply (fetch_json_transport_calls word language_code (uncounted r)).
    + rewrite fetch_parser_transport_calls.
      apply (fetch_json_transport_calls word language_code (uncounted r)).
    + rewrite fetch_word_transport_calls, fetch_parser_transport_calls.
      apply (fetch_json_transport_calls word language_code (uncounted r)).
Qed.

(** X7. Nothing is cached between calls: a fetch that follows another one
    (with the same arguments or not, after a success or a failure) runs
    the transport again if its URL builder returns, so two fetches whose
    words the builder accepts make exactly two requests. *)
Theorem no_caching_between_calls (word1 word2 : string)
  (language_code1 language_code2 : option LanguageCodes) (r : Counted)
  (accepted1 accepted2 : string * LanguageCodes) :
  _generate_url (client r) word1 language_code1 = Returned accepted1 ->
  (forall self, _generate_url self word2 language_code2 = Returned accepted2) ->
  transport_runs (snd (counted_json word2 language_code2
                         (snd (counted_json word1 language_code1 r))))
    = (2 + transport_runs r)%nat
  /\ transport_runs (snd (counted_parser word2 language_code2
                            (snd (counted_parser word1 language_code1 r))))
     = (2 + transport_runs r)%nat
  /\ transport_runs (snd (counted_word word2 language_code2
                            (snd (counted_word word1 language_code1 r))))
     = (2 + transport_runs r)%nat.
Proof.
  intros Hfirst Hsecond. split; [| split].
  - rewrite !counted_json_runs, Hfirst, Hsecond. cbn [returned_count]. lia.
  - rewrite !counted_parser_runs, !counted_json_runs.
    rewrite counted_parser_runs, counted_json_runs.
    rewrite Hfirst, Hsecond. cbn [returned_count]. lia.
  - rewrite counted_word_runs, counted_parser_runs, counted_json_runs.
    rewrite counted_word_runs, counted_parser_runs, counted_json_runs.
    rewrite Hfirst, Hsecond. cbn [returned_count]. lia.
Qed.

End CountedRuns.

(** * The further properties at work on the canned networks *)

Section MoreRuns.

Import Fixture.

(** [fetch_json "hello"] returned: the transport had answered 200 with
    the body and the analyzer had returned it. *)
Lemma fetch_json_returns_inv_witness :
  exists status body self1 w1,
    canned (endpoint "hello" "en") "client"
      [request_log_message (logging := logging) "hello" "en" (endpoint "hello" "en")]
      = (Returned (status, body), self1, w1)
    /\ spec_analyze_response log_analysis (endpoint "hello" "en") status body self1 w1
       = (Returned hello_body,
          client (snd (json_of "hello" None start)),
          world (snd (json_of "hello" None start)))
    /\ calls (snd (json_of "hello" None start))
       = [CallGenerateUrl "hello" None;
          CallLoggerInfo
            (request_log_message (logging := logging) "hello" "en" (endpoint "hello" "en"));
          CallFetchApiResponse (endpoint "hello" "en");
          CallAnalyzeResponse (endpoint "hello" "en") status body].
Proof.
  exact (fetch_json_returns_inv (interface := interface) (logging := logging)
           (transport := transport) (DictionaryApiParser := Json)
           "hello" None start (r' := snd (json_of "hello" None start))
           (url := endpoint "hello" "en") (resolved := "en")
           eq_refl eq_refl).
Defined.

(** The word "hello" came out of a body and a parser. *)
Lemma fetch_word_returns_iff_witness :
  exists json_response parser,
    fst (json_of "hello" None start) = Returned json_response
    /\ DictionaryApiParser_init (ParserClass := parsers) json_response = Returned parser
    /\ DictionaryApiParser_word (ParserClass := parsers) parser = Returned "hello"%string.
Proof.
  exact (proj1 (fetch_word_returns_iff (interface := interface) (parsers := parsers)
                  (logging := logging) (transport := transport)
                  "hello" None start "hello"%string) eq_refl).
Defined.

(** An empty list of entries fails in the constructor, an entry without
    "word" fails in the accessor. *)
Lemma parsing_failures_propagate_witness :
  Sparse.word_of "empty" None start
  = (Raised (ParsingError "no entries"),
     record (CallDictionaryApiParser (JList [])) (snd (Sparse.json_of "empty" None start)))
  /\ Sparse.word_of "nameless" None start
     = (Raised (ParsingError "word"),
        record (CallParserWord Sparse.nameless_body)
          (snd (Sparse.parser_of "nameless" None start))).
Proof.
  split.
  - exact (proj2 (proj1 (parsing_failures_propagate
             (interface := interface) (parsers := parsers) (logging := logging)
             (transport := Sparse.transport)
             "empty" None start (snd (Sparse.json_of "empty" None start))
             (ParsingError "no entries"))
           (JList []) eq_refl eq_refl)).
  - exact (proj2 (parsing_failures_propagate
             (interface := interface) (parsers := parsers) (logging := logging)
             (transport := Sparse.transport)
             "nameless" None start (snd (Sparse.parser_of "nameless" None start))
             (ParsingError "word"))
           Sparse.nameless_body eq_refl eq_refl).
Defined.

(** The exception of [fetch_word ""] on the strict client is the one of
    the URL builder. *)
Lemma fetch_word_raise_origin_witness :
  let e := ValueError "empty word" in
  let r' := snd (Strict.word_of "" None start) in
  (Strict.generate_url (client start) "" None = Raised e
   /\ r' = record (CallGenerateUrl "" None) start)
  \/ exists url resolved,
       Strict.generate_url (client start) "" None = Returned (url, resolved)
       /\ (self_fetch_api_response (transport := transport) url
             (request_logged (logging := logging) "" None url resolved start)
             = (Raised e, r')
           \/ (exists status body r1,
                 self_fetch_api_response (transport := transport) url
                   (request_logged (logging := logging) "" None url resolved start)
                   = (Returned (status, body), r1)
                 /\ self_analyze_response (interface := Strict.interface)
                      url status body r1 = (Raised e, r'))
           \/ (exists json_response r1,
                 Strict.json_of "" None start = (Returned json_response, r1)
                 /\ new_DictionaryApiParser (parsers := parsers) json_response r1
                    = (Raised e, r'))
           \/ (exists parser r1,
                 fetch_parser (interface := Strict.interface) (parsers := parsers)
                   (logging := logging) (transport := transport) "" None start
                   = (Returned parser, r1)
                 /\ parser_word (parsers := parsers) parser r1 = (Raised e, r'))).
Proof.
  exact (fetch_word_raise_origin (interface := Strict.interface) (parsers := parsers)
           (logging := logging) (transport := transport)
           "" None start (r' := snd (Strict.word_of "" None start))
           (e := ValueError "empty word") eq_refl).
Defined.


(** The same word looked up twice: the transport ran twice. *)
Lemma no_caching_between_calls_witness :
  transport_runs
    (snd (Strict.counted_word_of "hello" None
            (snd (Strict.counted_word_of "hello" None Strict.counted_start))))
  = 2%nat.
Proof.
  refine (proj2 (proj2 (no_caching_between_calls
            (interface := Strict.interface) (parsers := parsers) (logging := logging)
            (transport := transport)
            "hello" "hello" None None Strict.counted_start
            (accepted1 := (endpoint "hello" "en", "en"))
            (accepted2 := (endpoint "hello" "en", "en")) eq_refl _))).
  intros self. reflexivity.
Defined.

(** One run of the transport for an accepted word, whatever the outcome
    (here a 404 turned into an exception), none for a refused one. *)
Lemma transport_runs_once_unless_refused_witness :
  transport_runs (snd (Strict.counted_word_of "qwzx" None Strict.counted_start)) = 1%nat
  /\ transport_runs (snd (Strict.counted_word_of "" None Strict.counted_start)) = 0%nat.
Proof.
  split.
  - exact (proj2 (proj2 (proj1 (transport_runs_once_unless_refused
             (interface := Strict.interface) (parsers := parsers) (logging := logging)
             (transport := transport) "qwzx" None Strict.counted_start)))).
  - exact (proj2 (proj2 (proj1 (transport_runs_once_unless_refused
             (interface := Strict.interface) (parsers := parsers) (logging := logging)
             (transport := transport) "" None Strict.counted_start)))).
Defined.

(** On the client whose URL builder refuses the empty word, a fetch of
    the empty word ends with the builder's exception and the transport is
    not run: not once, but never. *)
Lemma transport_called_exactly_once_counterexample :
  fst (Strict.word_of "" None start) = Raised (ValueError "empty word")
  /\ transport_calls (calls (snd (Strict.word_of "" None start)))
     <> S (transport_calls (calls start))
  /\ transport_runs (snd (Strict.counted_word_of "" None Strict.counted_start))
     <> S (transport_runs Strict.counted_start).
Proof.
  split; [reflexivity | split]; cbn; discriminate.
Qed.

(** With a transport that notes an opened session on the client, the
    client is not the same after a fetch; with a transport that leaves
    the client alone but meters requests, the same fetch succeeds or
    fails according to whether another fetch came first. *)
Lemma fetch_preserves_client_counterexample :
  client (snd (Stateful.opening_json_of "hello" None start)) <> client start
  /\ (forall url, preserves_client (Stateful.metered url))
  /\ fst (Stateful.metered_word_of "hello" None start) = Returned "hello"%string
  /\ fst (Stateful.metered_word_of "hello" None
            (snd (Stateful.metered_word_of "qwzx" None start)))
     = Raised (TransportError "rate limit").
Proof.
  split; [cbn; discriminate | split; [| split; reflexivity]].
  intros url self w. unfold Stateful.metered, canned.
  destruct (2 <=? List.length w)%nat; [reflexivity |].
  repeat destruct (String.eqb _ _); reflexivity.
Qed.


(** No language code and "en" are the same lookup. *)
Lemma language_code_only_through_url_builder_witness :
  visible (word_of "hello" None start) = visible (word_of "hello" (Some "en") start).
Proof.
  exact (proj2 (proj2 (language_code_only_through_url_builder
           (interface := interface) (parsers := parsers) (logging := logging)
           (transport := transport)
           "hello" None (Some "en") start eq_refl))).
Defined.

Example two_lookups_two_requests :
  transport_calls (calls (snd (word_of "hello" None (snd (word_of "hello" None start)))))
  = 2%nat.
Proof. reflexivity. Qed.

End MoreRuns.
